(** * generating_questions: a shallow embedding of [script.py]

    The script reads a text file, asks a text-to-text model for candidate
    questions, keeps the ones an extractive question-answering model can
    answer from the same text, prints them and writes them to a file.

    Conventions of the embedding.
    - A Python [str] is a [string]; its characters are read as the code
      points 0 to 255.
    - A Python [int] is a [Z].
    - A dict with string keys is a [gmap string _].
    - The file system, the console and the calls made to the external
      collaborators (torch, transformers) are threaded through a state;
      raising is a result constructor.  [exn] stands for instances of
      Python's [Exception]; [exit(code)] is the separate result [SysExit],
      which no [except Exception] or [except ValueError] clause catches.
    - The collaborators are opaque: they are fields of an environment
      [Env], so that every theorem holds for every stub put in their place.
      What they do to the machine besides returning or raising (the model
      cache that transformers fills) is outside the modelled file system,
      and a file is identified by the path string it is opened with. *)

From Stdlib Require Import ZArith NArith Ascii.
From stdpp Require Import base strings list gmap pretty.

Local Open Scope Z_scope.

(** ** Python values and exceptions *)

Module Py.

(** The exception classes that occur in the script or in its collaborators'
    documented failures. *)
Inductive exn_class :=
  | ValueError
  | UnicodeDecodeError
  | UnicodeEncodeError
  | KeyError
  | AttributeError
  | TypeError
  | RuntimeError
  | MemoryError
  | OSError
  | FileNotFoundError
  | PermissionError
  | IsADirectoryError
  | ConnectionError.

(** An exception instance: its class and [str(e)]. *)
Record exn := Exn { exn_class_of : exn_class; exn_str : string }.

(** [isinstance(e, ValueError)]: UnicodeError and its two subclasses derive
    from ValueError in Python's hierarchy. *)
Definition isinstance_ValueError (e : exn) : bool :=
  match exn_class_of e with
  | ValueError | UnicodeDecodeError | UnicodeEncodeError => true
  | _ => false
  end.

(** [isinstance(e, Exception)]: every [exn] is one. *)
Definition isinstance_Exception (e : exn) : bool := true.

(** The values a question-answering result may hold under a key. *)
Inductive value :=
  | VNone
  | VStr (s : string)
  | VInt (n : Z)
  | VFloat (bits : Z).

(** What a call into a collaborator does: it returns or it raises. *)
Inductive attempt (A : Type) :=
  | Returns (a : A)
  | Raises (e : exn).
Arguments Returns {A} a.
Arguments Raises {A} e.

(** [str.isspace] on one character, for the code points below 256:
    TAB, LF, VT, FF, CR, FS, GS, RS, US, SPACE, NEL and NBSP. *)
Definition isspace (c : ascii) : bool :=
  let n := N_of_ascii c in
  ((9 <=? n) && (n <=? 13) || (28 <=? n) && (n <=? 32)
   || (n =? 133) || (n =? 160))%N.

(** [s.lstrip()] *)
Fixpoint lstrip (s : string) : string :=
  match s with
  | EmptyString => EmptyString
  | String c r => if isspace c then lstrip r else s
  end.

(** [s.rstrip()] *)
Fixpoint rstrip (s : string) : string :=
  match s with
  | EmptyString => EmptyString
  | String c r =>
      match rstrip r with
      | EmptyString => if isspace c then EmptyString else String c EmptyString
      | r' => String c r'
      end
  end.

(** [s.strip()] *)
Definition strip (s : string) : string := rstrip (lstrip s).

(** Truth value of a string: [bool(s)]. *)
Definition truthy (s : string) : bool :=
  match s with EmptyString => false | _ => true end.

(** The newline character, ["\n"]. *)
Definition LF : ascii := ascii_of_N 10.
Definition CR : ascii := ascii_of_N 13.
Definition nl : string := String LF EmptyString.

(** What reading in text mode with [newline=None] does to the decoded
    text: ["\r\n"] and a lone ["\r"] both become ["\n"]. *)
Fixpoint universal_newlines (s : string) : string :=
  match s with
  | EmptyString => EmptyString
  | String c r =>
      if Ascii.eqb c CR then
        match r with
        | String c' r' =>
            if Ascii.eqb c' LF then String LF (universal_newlines r')
            else String LF (universal_newlines r)
        | EmptyString => String LF EmptyString
        end
      else String c (universal_newlines r)
  end.

(** [c.isprintable()] for the code points below 256: the graphic ASCII
    characters and the space, and U+00A1 to U+00FF without the soft
    hyphen. *)
Definition isprintable (c : ascii) : bool :=
  let n := N_of_ascii c in
  ((32 <=? n) && (n <=? 126) || (161 <=? n) && negb (n =? 173))%N.

(** The characters [repr] treats apart. *)
Definition APOSTROPHE : ascii := ascii_of_N 39.
Definition QUOTE : ascii := ascii_of_N 34.
Definition BACKSLASH : ascii := ascii_of_N 92.
Definition TAB : ascii := ascii_of_N 9.

Fixpoint contains (c : ascii) (s : string) : bool :=
  match s with
  | EmptyString => false
  | String c' r => Ascii.eqb c' c || contains c r
  end.

(** A lower-case hexadecimal digit. *)
Definition hex_digit (n : N) : ascii :=
  ascii_of_N (if (n <? 10)%N then 48 + n else 87 + n)%N.

(** How [repr] shows one character between [quote]s. *)
Definition repr_char (quote c : ascii) : string :=
  if Ascii.eqb c quote || Ascii.eqb c BACKSLASH then
    String BACKSLASH (String c EmptyString)
  else if Ascii.eqb c LF then String BACKSLASH "n"
  else if Ascii.eqb c CR then String BACKSLASH "r"
  else if Ascii.eqb c TAB then String BACKSLASH "t"
  else if isprintable c then String c EmptyString
  else
    let n := N_of_ascii c in
    String BACKSLASH
      (String "x" (String (hex_digit (n / 16)) (String (hex_digit (n mod 16))
                                                  EmptyString))).

Fixpoint repr_chars (quote : ascii) (s : string) : string :=
  match s with
  | EmptyString => EmptyString
  | String c r => repr_char quote c +:+ repr_chars quote r
  end.

(** [repr(s)]: in apostrophes, or in double quotes when the string holds
    an apostrophe and no double quote. *)
Definition repr (s : string) : string :=
  let quote :=
    if contains APOSTROPHE s && negb (contains QUOTE s) then QUOTE
    else APOSTROPHE in
  String quote (repr_chars quote s +:+ String quote EmptyString).

(** [d.get(key, default)] *)
Definition dict_get {V} (d : gmap string V) (key : string) (default : V) : V :=
  match d !! key with
  | Some v => v
  | None => default
  end.

(** The name [type(v).__name__] shows in an AttributeError. *)
Definition type_name (v : value) : string :=
  match v with
  | VNone => "NoneType"
  | VStr _ => "str"
  | VInt _ => "int"
  | VFloat _ => "float"
  end.

(** [v.strip()]: only a [str] has the method. *)
Definition value_strip (v : value) : attempt string :=
  match v with
  | VStr s => Returns (strip s)
  | _ => Raises (Exn AttributeError
                   ("'" +:+ type_name v +:+ "' object has no attribute 'strip'"))
  end.

(** [d[key]] *)
Definition dict_item (d : gmap string string) (key : string) : attempt string :=
  match d !! key with
  | Some v => Returns v
  | None => Raises (Exn KeyError ("'" +:+ key +:+ "'"))
  end.

End Py.

Import Py.

(** ** The world the script runs in *)

(** A file as [encoding="utf-8"] sees it: either the text its bytes decode
    to, or bytes that are not valid UTF-8, with the text of the
    UnicodeDecodeError that decoding them raises.  Newlines are written as
    they are (the POSIX behaviour of text mode) and translated when read. *)
Inductive file :=
  | Text (content : string)
  | NotUtf8 (reason : string).

(** The calls the script makes to torch and transformers, in order. *)
Inductive event :=
  | CudaProbe
  | PipelineLoad (task model : string) (device : Z) (num_beams : option Z)
  | GenerateCall (prompt : string) (max_new_tokens num_return_sequences : Z)
  | AnswerCall (question context : string).

(** [stdout] lists the arguments of the calls of [print], oldest first. *)
Record state := State {
  files : gmap string file;
  stdout : list string;
  log : list event;
}.

(** A text2text-generation pipeline: called with the prompt,
    [max_new_tokens] and [num_return_sequences], it returns a list of
    dicts. *)
Definition text2text : Type :=
  string → Z → Z → attempt (list (gmap string string)).

(** A question-answering pipeline: called with [question] and [context],
    it returns a dict. *)
Definition question_answering : Type :=
  string → string → attempt (gmap string value).

(** The collaborators.  [pipeline_text2text model device num_beams] and
    [pipeline_qa model device] are [transformers.pipeline] at the two tasks
    the script uses; [open_w_error path] is the [OSError] that
    [open(path, "w")] raises, if any. *)
Record Env := {
  cuda_is_available : bool;
  pipeline_text2text : string → Z → Z → attempt text2text;
  pipeline_qa : string → Z → attempt question_answering;
  open_w_error : string → option exn;
}.

(** ** Results and the state monad *)

Inductive result (A : Type) :=
  | Ok (a : A)
  | Raise (e : exn)
  | SysExit (code : Z).
Arguments Ok {A} a.
Arguments Raise {A} e.
Arguments SysExit {A} code.

Definition M (A : Type) : Type := state → state * result A.

#[global] Instance M_ret : MRet M := λ A a st, (st, Ok a).

#[global] Instance M_bind : MBind M := λ A B f m st,
  match m st with
  | (st', Ok a) => f a st'
  | (st', Raise e) => (st', Raise e)
  | (st', SysExit c) => (st', SysExit c)
  end.

Definition raise {A} (e : exn) : M A := λ st, (st, Raise e).

(** [exit(code)] *)
Definition sys_exit {A} (code : Z) : M A := λ st, (st, SysExit code).

(** [try: body / except C as e: handler], where [catches e] is
    [isinstance(e, C)]. *)
Definition try_except {A} (body : M A) (catches : exn → bool)
    (handler : exn → M A) : M A := λ st,
  match body st with
  | (st', Raise e) => if catches e then handler e st' else (st', Raise e)
  | r => r
  end.

(** Lifting a collaborator's answer. *)
Definition lift {A} (a : attempt A) : M A :=
  match a with
  | Returns v => mret v
  | Raises e => raise e
  end.

Definition emit (ev : event) : M unit := λ st,
  (State (files st) (stdout st) (log st ++ [ev]), Ok tt).

(** [print(line)] *)
Definition print (line : string) : M unit := λ st,
  (State (files st) (stdout st ++ [line]) (log st), Ok tt).

(** [for x in xs: body x] *)
Fixpoint for_each {A} (xs : list A) (body : A → M unit) : M unit :=
  match xs with
  | [] => mret tt
  | x :: rest => body x ;; for_each rest body
  end.

(** [[f x for x in xs]] *)
Fixpoint comprehension {A B} (f : A → M B) (xs : list A) : M (list B) :=
  match xs with
  | [] => mret []
  | x :: rest => y ← f x; ys ← comprehension f rest; mret (y :: ys)
  end.

(** [enumerate(xs, start)] *)
Fixpoint enumerate {A} (start : Z) (xs : list A) : list (Z * A) :=
  match xs with
  | [] => []
  | x :: rest => (start, x) :: enumerate (start + 1) rest
  end.

(** ** File primitives *)

(** [open(path, "r", encoding="utf-8").read()] *)
Definition file_read (path : string) : M string := λ st,
  match files st !! path with
  | None =>
      (st, Raise (Exn FileNotFoundError
                    ("[Errno 2] No such file or directory: " +:+ repr path)))
  | Some (NotUtf8 reason) => (st, Raise (Exn UnicodeDecodeError reason))
  | Some (Text t) => (st, Ok (universal_newlines t))
  end.

(** [f.write(s)] on the file opened at [path]: the text is appended to what
    the file holds. *)
Definition file_write (path : string) (s : string) : M unit := λ st,
  match files st !! path with
  | Some (Text t) =>
      (State (<[path := Text (t +:+ s)]> (files st)) (stdout st) (log st), Ok tt)
  | _ => (st, Raise (Exn ValueError "I/O operation on closed file."))
      (* not reached after [open_w] *)
  end.

Section Script.

Variable E : Env.

(** [open(path, "w", encoding="utf-8")]: creates the file or truncates it. *)
Definition open_w (path : string) : M unit := λ st,
  match open_w_error E path with
  | Some e => (st, Raise e)
  | None => (State (<[path := Text ""]> (files st)) (stdout st) (log st), Ok tt)
  end.

(** ** The script *)

(** [read_text_file], lines 6-22. *)
Definition read_text_file (file_path : string) : M string :=
  text ← file_read file_path;
  mret text.

(** [write_questions], lines 25-40. *)
Definition write_questions (questions : list string) (output_file : string)
    : M unit :=
  open_w output_file ;;
  for_each questions (λ q, file_write output_file (q +:+ nl)).

(** The message of the error [generate_questions] raises on line 60. *)
Definition invalid_argument : exn :=
  Exn ValueError "num_questions and max_tokens must be >= 1".

(** The model names on lines 67 and 94. *)
Definition qg_model : string := "valhalla/t5-base-qg-hl".
Definition qa_model : string := "distilbert-base-uncased-distilled-squad".

(** [0 if torch.cuda.is_available() else -1] *)
Definition select_device : M Z :=
  emit CudaProbe ;;
  mret (if cuda_is_available E then 0 else -1).

(** [generate_questions], lines 43-77. *)
Definition generate_questions (text : string) (num_questions max_tokens : Z)
    : M (list string) :=
  if ((num_questions <? 1) || (max_tokens <? 1))%Z then raise invalid_argument
  else
    device ← select_device;
    let num_beams := Z.max num_questions 4 in
    emit (PipelineLoad "text2text-generation" qg_model device (Some num_beams)) ;;
    qg_pipeline ← lift (pipeline_text2text E qg_model device num_beams);
    let prompt := "generate questions: " +:+ text in
    emit (GenerateCall prompt max_tokens num_questions) ;;
    questions ← lift (qg_pipeline prompt max_tokens num_questions);
    comprehension (λ q, lift (dict_item q "generated_text")) questions.

(** The body of the [try] on lines 101-104, for one question; it returns
    the list [answerable] as the body leaves it. *)
Definition try_question (qa_pipeline : question_answering)
    (context : string) (answerable : list string) (q : string)
    : M (list string) :=
  emit (AnswerCall q context) ;;
  result ← lift (qa_pipeline q context);
  answer ← lift (value_strip (dict_get result "answer" (VStr "")));
  if truthy answer then mret (answerable ++ [q]) else mret answerable.

(** The loop on lines 99-106; [except Exception: continue] leaves
    [answerable] as it was. *)
Fixpoint filter_loop (qa_pipeline : question_answering) (context : string)
    (questions : list string) (answerable : list string) : M (list string) :=
  match questions with
  | [] => mret answerable
  | q :: rest =>
      answerable' ← try_except (try_question qa_pipeline context answerable q)
                      isinstance_Exception (λ _, mret answerable);
      filter_loop qa_pipeline context rest answerable'
  end.

(** [filter_answerable_questions], lines 80-107. *)
Definition filter_answerable_questions (questions : list string)
    (context : string) : M (list string) :=
  device ← select_device;
  emit (PipelineLoad "question-answering" qa_model device None) ;;
  qa_pipeline ← lift (pipeline_qa E qa_model device);
  filter_loop qa_pipeline context questions [].

(** The parsed command line, lines 111-139. *)
Record Args := {
  text_file : string;
  output_file : string;
  num_questions : Z;
  max_tokens : Z;
}.

(** The parser's defaults. *)
Definition default_args (path : string) : Args :=
  {| text_file := path; output_file := "output.txt";
     num_questions := 3; max_tokens := 64 |}.

(** [main] after [parse_args], lines 141-164. *)
Definition main (args : Args) : M unit :=
  text ← try_except (read_text_file (text_file args)) isinstance_Exception
           (λ e, print ("Error reading file: " +:+ exn_str e) ;; sys_exit 1);
  (if truthy (strip text) then mret tt
   else print "Error: input file is empty." ;; sys_exit 1) ;;
  questions ← try_except
                (generate_questions text (num_questions args) (max_tokens args))
                isinstance_ValueError
                (λ ve, print ("Error generating questions: " +:+ exn_str ve) ;;
                       sys_exit 1);
  answerable_questions ← filter_answerable_questions questions text;
  for_each (enumerate 1 answerable_questions)
    (λ iq, print ("Question " +:+ pretty iq.1 +:+ ": " +:+ iq.2)) ;;
  write_questions answerable_questions (output_file args).

(** The exit status of the process: 0 when [main] returns, the argument of
    [exit], and 1 when an exception reaches the top level. *)
Definition exit_status (r : result unit) : Z :=
  match r with
  | Ok _ => 0
  | SysExit code => code
  | Raise _ => 1
  end.

End Script.

(** ** Notions the specification uses *)

(** The question-answering model, applied to [(q, context)], yields an
    answer string that is non-empty after whitespace trimming. *)
Definition yields_answer (qa : question_answering) (context q : string) : bool :=
  match qa q context with
  | Returns result =>
      match result !! "answer" with
      | Some (VStr a) => bool_decide (strip a ≠ "")
      | _ => false
      end
  | Raises _ => false
  end.

(** The text is empty or holds only whitespace. *)
Fixpoint blank (s : string) : bool :=
  match s with
  | EmptyString => true
  | String c r => isspace c && blank r
  end.

(** The lines of a text, split at each newline, without the terminators. *)
Fixpoint lines (s : string) : list string :=
  match s with
  | EmptyString => []
  | String c r =>
      if Ascii.eqb c LF then "" :: lines r
      else match lines r with
           | [] => [String c ""]
           | l :: ls => String c l :: ls
           end
  end.

(** The string holds a newline. *)
Fixpoint has_newline (s : string) : bool :=
  match s with
  | EmptyString => false
  | String c r => Ascii.eqb c LF || has_newline r
  end.

(** What a file holds after the strings were written one per line. *)
Definition one_per_line (questions : list string) : string :=
  foldr (λ q rest, q +:+ nl +:+ rest) "" questions.

(** The text of the file at [path], if there is one. *)
Definition content_of (st : state) (path : string) : option string :=
  match files st !! path with
  | Some (Text t) => Some t
  | _ => None
  end.

(** The device the probe selects. *)
Definition device_for (E : Env) : Z := if cuda_is_available E then 0 else -1.

(** The calls one filtering pass makes. *)
Definition filter_events (E : Env) (questions : list string) (context : string)
    : list event :=
  [CudaProbe; PipelineLoad "question-answering" qa_model (device_for E) None]
  ++ ((λ q, AnswerCall q context) <$> questions).

(** The events a run added to the log. *)
Definition new_events (st st' : state) : list event :=
  drop (length (log st)) (log st').

(** The beam counts handed to [transformers.pipeline]. *)
Definition beams (evs : list event) : list Z :=
  omap (λ ev, match ev with
              | PipelineLoad _ _ _ (Some b) => Some b
              | _ => None
              end) evs.

(** ** Test doubles *)

Module Stub.

(** A generation pipeline that returns the given questions. *)
Definition generator (outputs : list string) : text2text :=
  λ _ _ _, Returns ((λ q, {[ "generated_text" := q ]}) <$> outputs).

(** A question-answering pipeline that answers from a table and raises on
    the questions listed in [failing]. *)
Definition answerer (table : list (string * string)) (failing : list string)
    : question_answering := λ q _,
  if bool_decide (q ∈ failing) then
    Raises (Exn RuntimeError "model failure")
  else
    match list_to_map (M := gmap string string) table !! q with
    | Some a => Returns {[ "answer" := VStr a; "start" := VInt 0 ]}
    | None => Returns {[ "answer" := VStr "" ]}
    end.

(** An environment without accelerator where both pipelines load and every
    path can be written. *)
Definition env (qg : text2text) (qa : question_answering) : Env :=
  {| cuda_is_available := false;
     pipeline_text2text := λ _ _ _, Returns qg;
     pipeline_qa := λ _ _, Returns qa;
     open_w_error := λ _, None |}.

(** The question-answering model cannot be loaded. *)
Definition env_qa_unavailable (qg : text2text) : Env :=
  {| cuda_is_available := false;
     pipeline_text2text := λ _ _ _, Returns qg;
     pipeline_qa := λ _ _,
       Raises (Exn OSError "distilbert-base-uncased-distilled-squad is not a local folder");
     open_w_error := λ _, None |}.

(** The generation pipeline rejects its configuration with a ValueError. *)
Definition env_qg_value_error (qa : question_answering) : Env :=
  {| cuda_is_available := false;
     pipeline_text2text := λ _ _ _,
       Raises (Exn ValueError "Unrecognized configuration class");
     pipeline_qa := λ _ _, Returns qa;
     open_w_error := λ _, None |}.

(** The example of the specification: the model answers [q1] and [q3] but
    finds nothing for [q2]. *)
Definition q1_q3 : question_answering :=
  answerer [("q1", "Paris"); ("q3", "France")] [].

(** The model raises on [q2]. *)
Definition q2_throws : question_answering :=
  answerer [("q1", "Paris"); ("q3", "France")] ["q2"].

(** The model returns a result without ["answer"] for [q2]. *)
Definition q2_no_key : question_answering := λ q context,
  if bool_decide (q = "q2") then Returns {[ "start" := VInt 0 ]}
  else q1_q3 q context.

(** A question that spans two lines. *)
Definition two_lines : string := "a" +:+ nl +:+ "b".

(** The model answers the two-line question. *)
Definition answers_two_lines : question_answering :=
  answerer [(two_lines, "Paris")] [].

(** A command line asking for one question. *)
Definition one_question : Args :=
  {| text_file := "in.txt"; output_file := "output.txt";
     num_questions := 1; max_tokens := 64 |}.

(** A file system holding one text file. *)
Definition disk (path content : string) : state :=
  State {[ path := Text content ]} [] [].

End Stub.

(** ** Further notions and test doubles *)

(** The number of newline characters in a string. *)
Fixpoint count_newlines (s : string) : nat :=
  match s with
  | EmptyString => 0
  | String c r => (if Ascii.eqb c LF then 1 else 0) + count_newlines r
  end.

(** The string holds a carriage return. *)
Fixpoint has_return (s : string) : bool :=
  match s with
  | EmptyString => false
  | String c r => Ascii.eqb c CR || has_return r
  end.

(** The console line for the question numbered [i]. *)
Definition question_line (i : Z) (q : string) : string :=
  "Question " +:+ pretty i +:+ ": " +:+ q.

(** The calls one generation makes when the pipeline is built and called. *)
Definition generate_events (E : Env) (text : string) (n m : Z) : list event :=
  [CudaProbe;
   PipelineLoad "text2text-generation" qg_model (device_for E)
     (Some (Z.max n 4));
   GenerateCall ("generate questions: " +:+ text) m n].

Module Double.

(** A generation pipeline as the beam search has it: it returns the number
    of sequences asked for, and refuses to return more sequences than it
    has beams. *)
Definition beam_search (num_beams : Z) : text2text :=
  λ _ _ num_return_sequences,
    if (num_return_sequences <=? num_beams)%Z then
      Returns (replicate (Z.to_nat num_return_sequences)
                 {[ "generated_text" := "What is it?" ]})
    else
      Raises (Exn ValueError
                "`num_return_sequences` has to be smaller or equal to `num_beams`.").

(** An environment whose generation pipeline is built with the beam count
    it is given. *)
Definition env_beam_search (qa : question_answering) : Env :=
  {| cuda_is_available := false;
     pipeline_text2text := λ _ _ num_beams, Returns (beam_search num_beams);
     pipeline_qa := λ _ _, Returns qa;
     open_w_error := λ _, None |}.

(** A generation pipeline whose second result has no ["generated_text"]. *)
Definition keyless : text2text :=
  λ _ _ _, Returns [ {[ "generated_text" := "q1" ]}; {[ "text" := "q2" ]} ].

(** The model returns [None] as the answer to [q2]. *)
Definition answers_none : question_answering := λ q context,
  if bool_decide (q = "q2") then Returns {[ "answer" := VNone ]}
  else Stub.q1_q3 q context.

(** An environment in which no path can be opened for writing. *)
Definition env_read_only (qg : text2text) (qa : question_answering) : Env :=
  {| cuda_is_available := true;
     pipeline_text2text := λ _ _ _, Returns qg;
     pipeline_qa := λ _ _, Returns qa;
     open_w_error := λ path,
       Some (Exn PermissionError
               ("[Errno 13] Permission denied: '" +:+ path +:+ "'")) |}.

(** The question-answering pipeline rejects its configuration with a
    ValueError. *)
Definition env_qa_value_error (qg : text2text) : Env :=
  {| cuda_is_available := false;
     pipeline_text2text := λ _ _ _, Returns qg;
     pipeline_qa := λ _ _,
       Raises (Exn ValueError "Unrecognized configuration class");
     open_w_error := λ _, None |}.

(** A file system with an input file that is not valid UTF-8. *)
Definition binary_disk : state :=
  State {[ "in.txt" :=
             NotUtf8 "'utf-8' codec can't decode byte 0xff in position 0: invalid start byte" ]}
    [] [].

End Double.

(** * Proofs *)

Ltac run :=
  unfold mbind, M_bind, mret, M_ret, raise, sys_exit, emit, print; simpl.

(** ** Strings *)

Example strip_inner_space :
  strip ("  What is it? " +:+ nl) = "What is it?".
Proof. reflexivity. Qed.

Example strip_blank : strip (" " +:+ nl +:+ String CR " ") = "".
Proof. reflexivity. Qed.

Example universal_newlines_crlf :
  universal_newlines ("a" +:+ String CR nl +:+ "b" +:+ String CR "c")
  = "a" +:+ nl +:+ "b" +:+ nl +:+ "c".
Proof. reflexivity. Qed.

Example lines_two : lines ("q1" +:+ nl +:+ "q3" +:+ nl) = ["q1"; "q3"].
Proof. reflexivity. Qed.

Lemma blank_lstrip s : blank (lstrip s) = blank s.
Proof.
  induction s as [|c r IH]; simpl; [done|].
  destruct (isspace c) eqn:Hc; simpl; [done|]. by rewrite Hc.
Qed.

Lemma rstrip_empty s : rstrip s = "" ↔ blank s = true.
Proof.
  induction s as [|c r IH]; simpl; [done|].
  destruct (rstrip r) as [|c' r'] eqn:Hr.
  - assert (blank r = true) as -> by by apply IH.
    destruct (isspace c); simpl; split; congruence.
  - assert (blank r = false) as ->.
    { apply not_true_is_false. intros Hb. by apply IH in Hb. }
    rewrite andb_false_r. split; congruence.
Qed.

Lemma strip_empty s : strip s = "" ↔ blank s = true.
Proof. unfold strip. by rewrite rstrip_empty, blank_lstrip. Qed.

Lemma truthy_strip s : truthy (strip s) = negb (blank s).
Proof.
  destruct (blank s) eqn:Hb.
  - apply strip_empty in Hb. by rewrite Hb.
  - destruct (strip s) eqn:Hs; [|done].
    apply strip_empty in Hs. congruence.
Qed.

Lemma append_empty_r s : s +:+ "" = s.
Proof.
  induction s as [|c r IH]; [done|].
  change (String c (r +:+ "") = String c r). by rewrite IH.
Qed.

Lemma append_assoc s t u : (s +:+ t) +:+ u = s +:+ t +:+ u.
Proof.
  induction s as [|c r IH]; [done|].
  change (String c ((r +:+ t) +:+ u) = String c (r +:+ t +:+ u)).
  by rewrite IH.
Qed.

Lemma lines_cons q rest :
  has_newline q = false → lines (q +:+ nl +:+ rest) = q :: lines rest.
Proof.
  induction q as [|c r IH]; simpl; [done|].
  intros [Hc Hr]%orb_false_elim. rewrite Hc, (IH Hr). done.
Qed.

Lemma lines_one_per_line qs :
  forallb (λ q, negb (has_newline q)) qs = true → lines (one_per_line qs) = qs.
Proof.
  induction qs as [|q qs IH]; simpl; [done|].
  intros [Hq Hqs]%andb_prop. apply negb_true_iff in Hq.
  rewrite lines_cons by done. by rewrite IH.
Qed.

(** ** The writer *)

Lemma write_loop path qs : ∀ st t,
  files st !! path = Some (Text t) →
  for_each qs (λ q, file_write path (q +:+ nl)) st
  = (State (<[path := Text (t +:+ one_per_line qs)]> (files st))
       (stdout st) (log st), Ok tt).
Proof.
  induction qs as [|q qs IH]; intros [fs out lg] t Hp; simpl in *.
  - run. rewrite append_empty_r, insert_id; done.
  - run. unfold file_write at 1; simpl. rewrite Hp.
    rewrite (IH _ (t +:+ q +:+ nl)); simpl.
    + by rewrite insert_insert_eq, !append_assoc.
    + by rewrite lookup_insert_eq.
Qed.

Lemma write_questions_run E qs path st :
  open_w_error E path = None →
  write_questions E qs path st
  = (State (<[path := Text (one_per_line qs)]> (files st))
       (stdout st) (log st), Ok tt).
Proof.
  intros Hw. unfold write_questions, open_w. run. rewrite Hw.
  rewrite (write_loop _ _ _ ""); simpl.
  - by rewrite insert_insert_eq.
  - by rewrite lookup_insert_eq.
Qed.

Lemma write_questions_ok E qs path st st' :
  write_questions E qs path st = (st', Ok tt) →
  content_of st' path = Some (one_per_line qs).
Proof.
  destruct (open_w_error E path) as [e|] eqn:Hw.
  - unfold write_questions, open_w. run. by rewrite Hw.
  - rewrite write_questions_run by done. intros [= <-].
    unfold content_of; simpl. by rewrite lookup_insert_eq.
Qed.

(** ** The answerability filter *)

Lemma truthy_nonempty s : truthy s = bool_decide (s ≠ "").
Proof. by destruct s. Qed.

Lemma try_question_run qa ctx acc q st :
  try_except (try_question qa ctx acc q) isinstance_Exception
    (λ _, mret acc) st
  = (State (files st) (stdout st) (log st ++ [AnswerCall q ctx]),
     Ok (if yields_answer qa ctx q then acc ++ [q] else acc)).
Proof.
  unfold try_except, try_question, yields_answer, dict_get. run.
  destruct (qa q ctx) as [result|e]; simpl; [|done].
  destruct (result !! "answer") as [[]|]; simpl; try done.
  rewrite truthy_nonempty. by case_bool_decide.
Qed.

Lemma filter_loop_run qa ctx qs : ∀ acc st,
  filter_loop qa ctx qs acc st
  = (State (files st) (stdout st)
       (log st ++ ((λ q, AnswerCall q ctx) <$> qs)),
     Ok (acc ++ List.filter (yields_answer qa ctx) qs)).
Proof.
  induction qs as [|q qs IH]; intros acc [fs out lg]; simpl.
  - run. by rewrite !app_nil_r.
  - unfold mbind, M_bind. rewrite try_question_run, IH; simpl.
    rewrite <-app_assoc; simpl.
    destruct (yields_answer qa ctx q); [|done].
    by rewrite <-app_assoc.
Qed.

Lemma filter_answerable_questions_run E qa qs ctx st :
  pipeline_qa E qa_model (device_for E) = Returns qa →
  filter_answerable_questions E qs ctx st
  = (State (files st) (stdout st) (log st ++ filter_events E qs ctx),
     Ok (List.filter (yields_answer qa ctx) qs)).
Proof.
  intros Hqa. unfold filter_answerable_questions, select_device. run.
  fold (device_for E). rewrite Hqa; simpl.
  rewrite filter_loop_run; simpl. unfold filter_events.
  by rewrite <-!app_assoc.
Qed.

Lemma filter_answerable_questions_raise E e qs ctx st :
  pipeline_qa E qa_model (device_for E) = Raises e →
  filter_answerable_questions E qs ctx st
  = (State (files st) (stdout st)
       (log st ++ [CudaProbe;
                   PipelineLoad "question-answering" qa_model (device_for E) None]),
     Raise e).
Proof.
  intros Hqa. unfold filter_answerable_questions, select_device. run.
  fold (device_for E). rewrite Hqa; simpl. by rewrite <-!app_assoc.
Qed.

Lemma filter_sublist {A} (f : A → bool) (l : list A) :
  sublist (List.filter f l) l.
Proof.
  induction l as [|x l IH]; simpl; [done|].
  destruct (f x); by constructor.
Qed.

(** ** The generator *)

Lemma comprehension_lift {A B} (f : A → attempt B) xs st :
  ∃ r, comprehension (λ x, lift (f x)) xs st = (st, r) ∧ ∀ c, r ≠ SysExit c.
Proof.
  induction xs as [|x xs [r [IH Hr]]]; simpl.
  - by eexists.
  - unfold mbind, M_bind. unfold lift at 1.
    destruct (f x) as [y|e]; simpl.
    + unfold mret at 1, M_ret at 1. rewrite IH.
      destruct r as [ys|e|c]; [by eexists..|by destruct (Hr c)].
    + by eexists.
Qed.

Lemma generate_questions_invalid E text n m st :
  n < 1 ∨ m < 1 →
  generate_questions E text n m st = (st, Raise invalid_argument).
Proof.
  intros H. unfold generate_questions.
  assert ((n <? 1) || (m <? 1) = true) as ->; [|done].
  apply orb_true_iff. rewrite !Z.ltb_lt. done.
Qed.

Lemma generate_questions_valid E text n m st :
  1 ≤ n → 1 ≤ m →
  ∃ evs r,
    generate_questions E text n m st
    = (State (files st) (stdout st)
         (log st ++ CudaProbe
            :: PipelineLoad "text2text-generation" qg_model (device_for E)
                 (Some (Z.max n 4))
            :: evs), r)
    ∧ beams evs = [] ∧ ∀ c, r ≠ SysExit c.
Proof.
  intros Hn Hm. unfold generate_questions.
  assert ((n <? 1) || (m <? 1) = false) as ->.
  { apply orb_false_iff. rewrite !Z.ltb_ge. done. }
  unfold select_device. run. fold (device_for E).
  destruct (pipeline_text2text E qg_model (device_for E) (Z.max n 4))
    as [qg|e]; simpl.
  - destruct (qg ("generate questions: " +:+ text) m n) as [ds|e]; simpl.
    + edestruct (comprehension_lift (λ q, dict_item q "generated_text") ds)
        as [r [-> Hr]].
      exists [GenerateCall ("generate questions: " +:+ text) m n], r.
      by rewrite <-!app_assoc.
    + exists [GenerateCall ("generate questions: " +:+ text) m n], (Raise e).
      by rewrite <-!app_assoc.
  - exists [], (Raise e). by rewrite <-!app_assoc.
Qed.

Lemma generate_questions_frame E text n m st :
  let st' := (generate_questions E text n m st).1 in
  files st' = files st ∧ stdout st' = stdout st
  ∧ ∀ c, (generate_questions E text n m st).2 ≠ SysExit c.
Proof.
  destruct (decide (1 ≤ n ∧ 1 ≤ m)) as [[Hn Hm]|Hnm].
  - destruct (generate_questions_valid E text n m st Hn Hm)
      as (evs & r & -> & _ & Hr). done.
  - rewrite generate_questions_invalid by lia. done.
Qed.

(** ** The orchestrator *)

Lemma read_text_file_run path st :
  read_text_file path st = (st, (read_text_file path st).2)
  ∧ ∀ c, (read_text_file path st).2 ≠ SysExit c.
Proof.
  unfold read_text_file, file_read. run.
  destruct (files st !! path) as [[t|]|]; done.
Qed.

Lemma print_loop_run {A} (f : A → string) xs : ∀ st,
  for_each xs (λ x, print (f x)) st
  = (State (files st) (stdout st ++ (f <$> xs)) (log st), Ok tt).
Proof.
  induction xs as [|x xs IH]; intros [fs out lg]; simpl.
  - run. by rewrite app_nil_r.
  - run. rewrite IH; simpl. by rewrite <-app_assoc.
Qed.

Lemma main_blank E args st text :
  (read_text_file (text_file args) st).2 = Ok text →
  blank text = true →
  main E args st
  = (State (files st) (stdout st ++ ["Error: input file is empty."]) (log st),
     SysExit 1).
Proof.
  intros Hread Hblank. unfold main, try_except. unfold mbind at 1, M_bind at 1.
  destruct (read_text_file_run (text_file args) st) as [-> _].
  rewrite Hread. unfold mbind at 1, M_bind at 1.
  rewrite truthy_strip, Hblank. done.
Qed.

Lemma main_run E args st text :
  (read_text_file (text_file args) st).2 = Ok text →
  blank text = false →
  main E args st
  = match generate_questions E text (num_questions args) (max_tokens args) st
    with
    | (st1, Ok questions) =>
        match filter_answerable_questions E questions text st1 with
        | (st2, Ok answerable) =>
            write_questions E answerable (output_file args)
              (State (files st2)
                 (stdout st2
                  ++ ((λ iq : Z * string,
                         "Question " +:+ pretty iq.1 +:+ ": " +:+ iq.2)
                      <$> enumerate 1 answerable))
                 (log st2))
        | (st2, Raise e) => (st2, Raise e)
        | (st2, SysExit c) => (st2, SysExit c)
        end
    | (st1, Raise e) =>
        if isinstance_ValueError e then
          (State (files st1)
             (stdout st1 ++ ["Error generating questions: " +:+ exn_str e])
             (log st1), SysExit 1)
        else (st1, Raise e)
    | (st1, SysExit c) => (st1, SysExit c)
    end.
Proof.
  intros Hread Hblank. unfold main, try_except. unfold mbind at 1, M_bind at 1.
  destruct (read_text_file_run (text_file args) st) as [-> _].
  rewrite Hread. unfold mbind at 1, M_bind at 1.
  rewrite truthy_strip, Hblank; simpl. unfold mbind at 1, M_bind at 1.
  destruct (generate_questions _ _ _ _ _) as [st1 [questions|e|c]]; simpl.
  - unfold mbind at 1, M_bind at 1.
    destruct (filter_answerable_questions _ _ _ _) as [st2 [answerable|e|c]];
      simpl; [|done..].
    unfold mbind at 1, M_bind at 1. by rewrite print_loop_run.
  - by destruct (isinstance_ValueError e).
  - done.
Qed.

Lemma main_read_error E args st e :
  (read_text_file (text_file args) st).2 = Raise e →
  main E args st
  = (State (files st) (stdout st ++ ["Error reading file: " +:+ exn_str e])
       (log st), SysExit 1).
Proof.
  intros Hread. unfold main, try_except. unfold mbind at 1, M_bind at 1.
  destruct (read_text_file_run (text_file args) st) as [-> _].
  by rewrite Hread.
Qed.

(** ** Further lemmas *)

Lemma comprehension_dict_item key ds st :
  comprehension (λ d, lift (dict_item d key)) ds st
  = (st, match mapM (λ d : gmap string string, d !! key) ds with
         | Some qs => Ok qs
         | None => Raise (Exn KeyError ("'" +:+ key +:+ "'"))
         end).
Proof.
  induction ds as [|d ds IH]; [done|].
  cbn [comprehension]. unfold mbind at 1, M_bind at 1.
  unfold lift at 1, dict_item at 1. cbn [mapM].
  destruct (d !! key) as [q|]; simpl; [|done].
  unfold mbind at 1, M_bind at 1. rewrite IH.
  by destruct (mapM _ ds).
Qed.

Lemma generate_questions_run E text n m st :
  1 ≤ n → 1 ≤ m →
  generate_questions E text n m st
  = match pipeline_text2text E qg_model (device_for E) (Z.max n 4) with
    | Raises e =>
        (State (files st) (stdout st)
           (log st ++ [CudaProbe;
                       PipelineLoad "text2text-generation" qg_model
                         (device_for E) (Some (Z.max n 4))]), Raise e)
    | Returns qg =>
        (State (files st) (stdout st) (log st ++ generate_events E text n m),
         match qg ("generate questions: " +:+ text) m n with
         | Raises e => Raise e
         | Returns ds =>
             match mapM (λ d : gmap string string, d !! "generated_text") ds
             with
             | Some qs => Ok qs
             | None => Raise (Exn KeyError "'generated_text'")
             end
         end)
    end.
Proof.
  intros Hn Hm. unfold generate_questions.
  assert ((n <? 1) || (m <? 1) = false) as ->.
  { apply orb_false_iff. rewrite !Z.ltb_ge. done. }
  unfold select_device. run. fold (device_for E).
  destruct (pipeline_text2text E qg_model (device_for E) (Z.max n 4))
    as [qg|e]; simpl; [|by rewrite <-!app_assoc].
  destruct (qg ("generate questions: " +:+ text) m n) as [ds|e]; simpl.
  - rewrite comprehension_dict_item. unfold generate_events.
    by rewrite <-!app_assoc.
  - unfold generate_events. by rewrite <-!app_assoc.
Qed.

Lemma generate_questions_ok_inv E text n m st st1 qs :
  generate_questions E text n m st = (st1, Ok qs) →
  st1 = State (files st) (stdout st) (log st ++ generate_events E text n m).
Proof.
  intros Hgen. destruct (decide (1 ≤ n ∧ 1 ≤ m)) as [[Hn Hm]|Hbad].
  - rewrite generate_questions_run in Hgen by done.
    destruct (pipeline_text2text _ _ _ _); by simplify_eq.
  - by rewrite generate_questions_invalid in Hgen by lia.
Qed.

Lemma filter_answerable_questions_frame E qs ctx st :
  let run := filter_answerable_questions E qs ctx st in
  files run.1 = files st ∧ stdout run.1 = stdout st
  ∧ ∀ c, run.2 ≠ SysExit c.
Proof.
  destruct (pipeline_qa E qa_model (device_for E)) as [qa|e] eqn:Hqa.
  - by rewrite (filter_answerable_questions_run E qa).
  - by rewrite (filter_answerable_questions_raise E e).
Qed.

Lemma write_questions_fail E e qs path st :
  open_w_error E path = Some e →
  write_questions E qs path st = (st, Raise e).
Proof. intros Hw. unfold write_questions, open_w. run. by rewrite Hw. Qed.

Lemma enumerate_imap {A B} (f : Z → A → B) xs : ∀ k,
  (λ iq : Z * A, f iq.1 iq.2) <$> enumerate k xs
  = imap (λ i x, f (Z.of_nat i + k) x) xs.
Proof.
  induction xs as [|x xs IH]; intros k; [done|].
  cbn [enumerate]. rewrite fmap_cons, imap_cons, IH. simpl. f_equal.
  apply imap_ext. intros i y _. simpl. f_equal. lia.
Qed.

Lemma universal_newlines_id s :
  has_return s = false → universal_newlines s = s.
Proof.
  induction s as [|c r IH]; [done|]. simpl.
  intros [Hc Hr]%orb_false_elim. rewrite Hc. by rewrite IH.
Qed.

Lemma has_return_append s t :
  has_return (s +:+ t) = has_return s || has_return t.
Proof.
  induction s as [|c r IH]; [done|].
  change (Ascii.eqb c CR || has_return (r +:+ t)
          = Ascii.eqb c CR || has_return r || has_return t).
  by rewrite IH, orb_assoc.
Qed.

Lemma has_return_one_per_line qs :
  forallb (λ q, negb (has_return q)) qs = true →
  has_return (one_per_line qs) = false.
Proof.
  induction qs as [|q qs IH]; [done|]. simpl.
  intros [Hq Hqs]%andb_prop. apply negb_true_iff in Hq.
  by rewrite !has_return_append, Hq, IH.
Qed.

Lemma length_lines_append q rest :
  length (lines (q +:+ nl +:+ rest))
  = (count_newlines q + 1 + length (lines rest))%nat.
Proof.
  induction q as [|c r IH]; [done|].
  change (String c r +:+ nl +:+ rest) with (String c (r +:+ nl +:+ rest)).
  cbn [lines count_newlines]. destruct (Ascii.eqb c LF); simpl.
  - by rewrite IH.
  - destruct (lines (r +:+ nl +:+ rest)) as [|l ls]; simpl in *; lia.
Qed.

(** * The claims *)

(** ** Writer *)

(** C5. On a path that can be opened for writing, [write_questions]
    replaces whatever the file held by the strings, each followed by one
    newline, in list order, and leaves everything else as it was; writing
    ["a"; "b"] and then ["c"] to the same path leaves exactly ["c\n"]. *)
Theorem write_questions_overwrites E questions output_file st :
  open_w_error E output_file = None →
  write_questions E questions output_file st
  = (State (<[output_file := Text (one_per_line questions)]> (files st))
       (stdout st) (log st), Ok tt)
  ∧ content_of
      (write_questions E ["c"] output_file
         (write_questions E ["a"; "b"] output_file st).1).1 output_file
    = Some ("c" +:+ nl).
Proof.
  intros Hw. split; [by apply write_questions_run|].
  rewrite !write_questions_run by done; simpl.
  unfold content_of; simpl. by rewrite lookup_insert_eq.
Qed.

Lemma write_questions_overwrites_witness :
  let E := Stub.env (Stub.generator []) Stub.q1_q3 in
  let st := Stub.disk "output.txt" "stale" in
  open_w_error E "output.txt" = None
  ∧ content_of (write_questions E ["a"; "b"] "output.txt" st).1 "output.txt"
    = Some ("a" +:+ nl +:+ "b" +:+ nl).
Proof.
  intros E st. split; [reflexivity|].
  rewrite (proj1 (write_questions_overwrites E ["a"; "b"] "output.txt" st
                    eq_refl)).
  reflexivity.
Defined.

(** C10. The writer copies each string as it is, so a question holding a
    newline takes more than one line of the file: for [two_lines] the file
    has two lines for one question. *)
Theorem write_questions_verbatim E output_file st :
  open_w_error E output_file = None →
  (∀ questions,
     content_of (write_questions E questions output_file st).1 output_file
     = Some (one_per_line questions))
  ∧ ∃ questions t,
      content_of (write_questions E questions output_file st).1 output_file
      = Some t
      ∧ (length questions < length (lines t))%nat.
Proof.
  intros Hw.
  assert (∀ qs, content_of (write_questions E qs output_file st).1 output_file
                = Some (one_per_line qs)) as Hall.
  { intros qs. rewrite write_questions_run by done.
    unfold content_of; simpl. by rewrite lookup_insert_eq. }
  split; [done|].
  exists [Stub.two_lines], (one_per_line [Stub.two_lines]).
  split; [apply Hall|]. vm_compute. lia.
Qed.

Lemma write_questions_verbatim_witness :
  let E := Stub.env (Stub.generator []) Stub.q1_q3 in
  let st := Stub.disk "in.txt" "text" in
  open_w_error E "output.txt" = None
  ∧ content_of (write_questions E [Stub.two_lines] "output.txt" st).1
      "output.txt"
    = Some ("a" +:+ nl +:+ "b" +:+ nl).
Proof.
  intros E st. split; [reflexivity|].
  rewrite (proj1 (write_questions_verbatim E "output.txt" st eq_refl)).
  reflexivity.
Defined.

(** ** Answerability filter *)

(** C2. With its question-answering pipeline loaded, the filter returns
    the questions for which the model yields an answer that is non-empty
    after trimming: exactly those, each as often and in the order it came
    in. *)
Theorem filter_answerable_questions_subsequence E qa questions context st :
  pipeline_qa E qa_model (device_for E) = Returns qa →
  ∃ st',
    filter_answerable_questions E questions context st
    = (st', Ok (List.filter (yields_answer qa context) questions))
    ∧ sublist (List.filter (yields_answer qa context) questions) questions
    ∧ ∀ q, q ∈ List.filter (yields_answer qa context) questions
           ↔ q ∈ questions ∧ yields_answer qa context q = true.
Proof.
  intros Hqa. eexists. split; [by apply filter_answerable_questions_run|].
  split; [apply filter_sublist|].
  intros q. by rewrite !list_elem_of_In, filter_In.
Qed.

Lemma filter_answerable_questions_subsequence_witness :
  let E := Stub.env (Stub.generator []) Stub.q1_q3 in
  pipeline_qa E qa_model (device_for E) = Returns Stub.q1_q3
  ∧ (filter_answerable_questions E ["q1"; "q2"; "q3"] "Paris is in France."
       (Stub.disk "in.txt" "Paris is in France.")).2
    = Ok ["q1"; "q3"].
Proof.
  intros E. split; [reflexivity|].
  destruct (filter_answerable_questions_subsequence E Stub.q1_q3
              ["q1"; "q2"; "q3"] "Paris is in France."
              (Stub.disk "in.txt" "Paris is in France.") eq_refl)
    as [st' [-> _]].
  reflexivity.
Defined.

(** C4, as the code has it.  Once the question-answering pipeline is
    loaded, the filter returns a list and raises nothing: every question is
    put to the model, a question on which the model fails is left out, and
    the answerable questions before and after it are kept. *)
Theorem filter_answerable_questions_fail_open E qa questions context st :
  pipeline_qa E qa_model (device_for E) = Returns qa →
  ∃ st' answerable,
    filter_answerable_questions E questions context st = (st', Ok answerable)
    ∧ new_events st st' = filter_events E questions context
    ∧ (∀ q e, qa q context = Raises e → q ∉ answerable)
    ∧ (∀ q, q ∈ questions → yields_answer qa context q = true →
            q ∈ answerable).
Proof.
  intros Hqa. do 2 eexists.
  split; [by apply filter_answerable_questions_run|].
  split; [unfold new_events; simpl; apply drop_app_length|].
  split.
  - intros q e Hq. rewrite list_elem_of_In, filter_In.
    unfold yields_answer. rewrite Hq. by intros [_ ?].
  - intros q Hin Hq. rewrite list_elem_of_In, filter_In.
    by rewrite <-list_elem_of_In.
Qed.

Lemma filter_answerable_questions_fail_open_witness :
  let E := Stub.env (Stub.generator []) Stub.q2_throws in
  pipeline_qa E qa_model (device_for E) = Returns Stub.q2_throws
  ∧ (filter_answerable_questions E ["q1"; "q2"; "q3"] "Paris is in France."
       (Stub.disk "in.txt" "Paris is in France.")).2
    = Ok ["q1"; "q3"].
Proof.
  intros E. split; [reflexivity|].
  destruct (filter_answerable_questions_fail_open E Stub.q2_throws
              ["q1"; "q2"; "q3"] "Paris is in France."
              (Stub.disk "in.txt" "Paris is in France.") eq_refl)
    as (st' & answerable & Hrun & _).
  rewrite Hrun. simpl. f_equal.
  vm_compute in Hrun. congruence.
Defined.

(** C4, as stated, fails: when [transformers.pipeline] raises while the
    question-answering model is loaded (line 92, outside the [try]), the
    filter raises that error to its caller. *)
Lemma filter_answerable_questions_raises_on_load :
  let E := Stub.env_qa_unavailable (Stub.generator []) in
  (filter_answerable_questions E ["q1"; "q2"; "q3"] "Paris is in France."
     (Stub.disk "in.txt" "Paris is in France.")).2
  = Raise (Exn OSError
             "distilbert-base-uncased-distilled-squad is not a local folder").
Proof. reflexivity. Qed.

(** C9. A result without an ["answer"] key makes the body of the [try]
    finish without raising and without adding the question, so the
    question is absent from what the filter returns. *)
Theorem missing_answer_key_drops E qa questions context q result st :
  pipeline_qa E qa_model (device_for E) = Returns qa →
  qa q context = Returns result →
  result !! "answer" = None →
  (∀ answerable st0, (try_question qa context answerable q st0).2
                     = Ok answerable)
  ∧ ∃ st' answerable,
      filter_answerable_questions E questions context st = (st', Ok answerable)
      ∧ q ∉ answerable.
Proof.
  intros Hqa Hq Hkey. split.
  - intros answerable st0. unfold try_question, dict_get. run.
    by rewrite Hq; simpl; rewrite Hkey.
  - do 2 eexists. split; [by apply filter_answerable_questions_run|].
    rewrite list_elem_of_In, filter_In. unfold yields_answer.
    rewrite Hq, Hkey. by intros [_ ?].
Qed.

Lemma missing_answer_key_drops_witness :
  let E := Stub.env (Stub.generator []) Stub.q2_no_key in
  pipeline_qa E qa_model (device_for E) = Returns Stub.q2_no_key
  ∧ Stub.q2_no_key "q2" "Paris is in France." = Returns {[ "start" := VInt 0 ]}
  ∧ ({[ "start" := VInt 0 ]} : gmap string value) !! "answer" = None
  ∧ (try_question Stub.q2_no_key "Paris is in France." ["q1"] "q2"
       (Stub.disk "in.txt" "Paris is in France.")).2 = Ok ["q1"].
Proof.
  intros E. split; [reflexivity|]. split; [reflexivity|].
  split; [reflexivity|].
  apply (missing_answer_key_drops E Stub.q2_no_key ["q1"; "q2"; "q3"]
           "Paris is in France." "q2" {[ "start" := VInt 0 ]}
           (Stub.disk "in.txt" "Paris is in France.")
           eq_refl eq_refl eq_refl).
Defined.

(** ** Question generator *)

(** C3. [generate_questions] raises its invalid-argument error, with no
    probe, load or model call made, exactly when [num_questions < 1] or
    [max_tokens < 1].  The error of line 60 is recognised by the state it
    is raised in: with both arguments at least 1 the device probe is logged
    before anything can be raised. *)
Theorem generate_questions_invalid_argument E text n m st :
  (n < 1 ∨ m < 1)
  ↔ generate_questions E text n m st = (st, Raise invalid_argument).
Proof.
  split; [apply generate_questions_invalid|].
  intros Hrun. destruct (decide (1 ≤ n ∧ 1 ≤ m)) as [[Hn Hm]|?]; [|lia].
  destruct (generate_questions_valid E text n m st Hn Hm)
    as (evs & r & Hvalid & _).
  rewrite Hvalid in Hrun. injection Hrun as Hst _.
  apply (f_equal (λ s, length (log s))) in Hst. simpl in Hst.
  rewrite length_app in Hst. simpl in Hst. lia.
Qed.

(** C8. For [num_questions >= 1] the beam count is
    [max(num_questions, 4)], at least [num_questions] and at least 4, and
    no other count is handed to [transformers.pipeline].  With
    [max_tokens >= 1] as well, the pipeline the run goes through is the one
    [transformers.pipeline] builds for that beam count: the run is what
    that pipeline load and the call of the pipeline it returns make it,
    with [num_questions] sequences asked of it. *)
Theorem generate_questions_beams E text n m st :
  1 ≤ n →
  let st' := (generate_questions E text n m st).1 in
  (∀ b, b ∈ beams (new_events st st') → b = Z.max n 4 ∧ n ≤ b ∧ 4 ≤ b)
  ∧ (1 ≤ m → beams (new_events st st') = [Z.max n 4])
  ∧ (1 ≤ m →
     generate_questions E text n m st
     = match pipeline_text2text E qg_model (device_for E) (Z.max n 4) with
       | Raises e =>
           (State (files st) (stdout st)
              (log st ++ [CudaProbe;
                          PipelineLoad "text2text-generation" qg_model
                            (device_for E) (Some (Z.max n 4))]), Raise e)
       | Returns qg_pipeline =>
           (State (files st) (stdout st)
              (log st ++ generate_events E text n m),
            match qg_pipeline ("generate questions: " +:+ text) m n with
            | Raises e => Raise e
            | Returns questions =>
                match mapM (λ q : gmap string string, q !! "generated_text")
                        questions
                with
                | Some texts => Ok texts
                | None => Raise (Exn KeyError "'generated_text'")
                end
            end)
       end).
Proof.
  intros Hn st'.
  assert (1 ≤ m → beams (new_events st st') = [Z.max n 4]) as Hbuilt.
  { intros Hm. unfold st'.
    destruct (generate_questions_valid E text n m st Hn Hm)
      as (evs & r & -> & Hevs & _).
    unfold new_events; simpl. rewrite drop_app_length.
    change (Z.max n 4 :: beams evs = [Z.max n 4]). by rewrite Hevs. }
  split; [|split; [done|]].
  - intros b Hb. destruct (decide (1 ≤ m)) as [Hm|Hm].
    + rewrite (Hbuilt Hm) in Hb. apply list_elem_of_singleton in Hb. lia.
    + unfold st' in Hb. rewrite generate_questions_invalid in Hb by lia.
      unfold new_events in Hb; simpl in Hb. rewrite drop_all in Hb.
      by apply elem_of_nil in Hb.
  - intros Hm. by apply generate_questions_run.
Qed.

Lemma generate_questions_beams_witness :
  let E := Double.env_beam_search Stub.q1_q3 in
  let st := Stub.disk "in.txt" "Paris is in France." in
  1 ≤ 6
  ∧ beams (new_events st (generate_questions E "Paris is in France." 6 64 st).1)
    = [6]
  ∧ (generate_questions E "Paris is in France." 6 64 st).2
    = Ok (replicate 6 "What is it?").
Proof.
  intros E st. split; [lia|].
  destruct (generate_questions_beams E "Paris is in France." 6 64 st
              ltac:(lia)) as (_ & Hbeams & Hrun).
  split; [apply Hbeams; lia|].
  rewrite (Hrun ltac:(lia)). reflexivity.
Defined.

(** ** Orchestrator *)

(** C6. When the text read from the input file is empty or all whitespace,
    [main] prints its diagnostic and exits with status 1; no file is
    written or changed and no model is loaded. *)
Theorem main_blank_input E args st text :
  (read_text_file (text_file args) st).2 = Ok text →
  blank text = true →
  main E args st
  = (State (files st) (stdout st ++ ["Error: input file is empty."]) (log st),
     SysExit 1)
  ∧ exit_status (main E args st).2 ≠ 0
  ∧ files (main E args st).1 = files st.
Proof.
  intros Hread Hblank. rewrite (main_blank E args st text Hread Hblank).
  done.
Qed.

Lemma main_blank_input_witness :
  let E := Stub.env (Stub.generator ["q1"]) Stub.q1_q3 in
  let st := Stub.disk "in.txt" "" in
  (read_text_file "in.txt" st).2 = Ok ""
  ∧ blank "" = true
  ∧ (main E Stub.one_question st).2 = SysExit 1
  ∧ content_of (main E Stub.one_question st).1 "output.txt" = None.
Proof.
  intros E st. split; [reflexivity|]. split; [reflexivity|].
  rewrite (proj1 (main_blank_input E Stub.one_question st "" eq_refl eq_refl)).
  split; reflexivity.
Defined.

(** C7, as the code has it.  With a non-blank text read, an error raised
    by the generation step is caught by [main] when, and only when, it is
    a ValueError, whether raised by the argument check of line 60 or by
    the collaborators: [main] then prints the diagnostic and exits with
    status 1.  Every other error leaves [main] as it was raised.  Either
    way the exit status is not 0 and no file is written. *)
Theorem main_generation_error E args st text st1 e :
  (read_text_file (text_file args) st).2 = Ok text →
  blank text = false →
  generate_questions E text (num_questions args) (max_tokens args) st
  = (st1, Raise e) →
  main E args st
  = (if isinstance_ValueError e then
       (State (files st)
          (stdout st ++ ["Error generating questions: " +:+ exn_str e])
          (log st1), SysExit 1)
     else (st1, Raise e))
  ∧ exit_status (main E args st).2 ≠ 0
  ∧ files (main E args st).1 = files st
  ∧ (num_questions args < 1 ∨ max_tokens args < 1 →
     e = invalid_argument ∧ isinstance_ValueError e = true).
Proof.
  intros Hread Hblank Hgen.
  destruct (generate_questions_frame E text (num_questions args)
              (max_tokens args) st) as (Hfiles & Hout & _).
  rewrite Hgen in Hfiles, Hout; simpl in Hfiles, Hout.
  rewrite (main_run E args st text Hread Hblank), Hgen, Hfiles, Hout.
  split; [done|]. split; [by destruct (isinstance_ValueError e)|].
  split; [by destruct (isinstance_ValueError e)|].
  intros Hbad. rewrite generate_questions_invalid in Hgen by done.
  by injection Hgen as _ <-.
Qed.

Lemma main_generation_error_witness :
  let E := Stub.env (Stub.generator ["q1"]) Stub.q1_q3 in
  let st := Stub.disk "in.txt" "Paris is in France." in
  let args := {| text_file := "in.txt"; output_file := "output.txt";
                 num_questions := 0; max_tokens := 64 |} in
  (read_text_file "in.txt" st).2 = Ok "Paris is in France."
  ∧ blank "Paris is in France." = false
  ∧ generate_questions E "Paris is in France." 0 64 st
    = (st, Raise invalid_argument)
  ∧ main E args st
    = (State (files st)
         ["Error generating questions: num_questions and max_tokens must be >= 1"]
         [], SysExit 1).
Proof.
  intros E st args. split; [reflexivity|]. split; [reflexivity|].
  split; [reflexivity|].
  rewrite (proj1 (main_generation_error E args st "Paris is in France." st
                    invalid_argument eq_refl eq_refl eq_refl)).
  reflexivity.
Defined.

(** C7, as stated, fails: a ValueError raised while the generation
    pipeline is built, with both numeric arguments valid, is not the
    invalid-argument error, yet [main] catches it, prints the diagnostic
    and exits with status 1 rather than letting it propagate. *)
Lemma main_catches_model_value_error :
  let E := Stub.env_qg_value_error Stub.q1_q3 in
  let st := Stub.disk "in.txt" "Paris is in France." in
  let e := Exn ValueError "Unrecognized configuration class" in
  (generate_questions E "Paris is in France." 1 64 st).2 = Raise e
  ∧ e ≠ invalid_argument
  ∧ CudaProbe ∈ log (generate_questions E "Paris is in France." 1 64 st).1
  ∧ (main E Stub.one_question st).2 = SysExit 1
  ∧ (main E Stub.one_question st).2 ≠ Raise e
  ∧ stdout (main E Stub.one_question st).1
    = ["Error generating questions: Unrecognized configuration class"].
Proof.
  intros E st e. split; [reflexivity|]. split; [done|].
  split; [vm_compute; by left|]. split; [reflexivity|].
  split; [by vm_compute|reflexivity].
Qed.

(** X13. When [main] returns, the output file holds the questions the
    filter returned, a subsequence of the generated ones in generation
    order, each followed by one newline and nothing else.  When none of
    them holds a newline, the lines of the file are exactly these
    questions, one per line. *)
Theorem main_output_file E args st st' :
  main E args st = (st', Ok tt) →
  ∃ text candidates st1 answerable st2,
    (read_text_file (text_file args) st).2 = Ok text
    ∧ generate_questions E text (num_questions args) (max_tokens args) st
      = (st1, Ok candidates)
    ∧ filter_answerable_questions E candidates text st1 = (st2, Ok answerable)
    ∧ sublist answerable candidates
    ∧ content_of st' (output_file args) = Some (one_per_line answerable)
    ∧ (forallb (λ q, negb (has_newline q)) answerable = true →
       lines (one_per_line answerable) = answerable).
Proof.
  intros Hmain.
  destruct (read_text_file (text_file args) st).2 as [text|e|c] eqn:Hread.
  2: { by rewrite (main_read_error E args st e Hread) in Hmain. }
  2: { by destruct (proj2 (read_text_file_run (text_file args) st) c). }
  destruct (blank text) eqn:Hblank.
  { by rewrite (main_blank E args st text Hread Hblank) in Hmain. }
  rewrite (main_run E args st text Hread Hblank) in Hmain.
  destruct (generate_questions _ _ _ _ _) as [st1 [candidates|e|c]] eqn:Hgen.
  2: { by destruct (isinstance_ValueError e). }
  2: { done. }
  destruct (filter_answerable_questions _ _ _ _)
    as [st2 [answerable|e|c]] eqn:Hfilter; [|done..].
  exists text, candidates, st1, answerable, st2.
  do 3 (split; [done|]). split.
  - destruct (pipeline_qa E qa_model (device_for E)) as [qa|e] eqn:Hqa.
    + rewrite (filter_answerable_questions_run E qa) in Hfilter by done.
      injection Hfilter as _ <-. apply filter_sublist.
    + by rewrite (filter_answerable_questions_raise E e) in Hfilter.
  - split; [by eapply write_questions_ok|apply lines_one_per_line].
Qed.

Lemma main_output_file_witness :
  let E := Stub.env (Stub.generator ["What is the capital of France?"])
             (Stub.answerer [("What is the capital of France?", "Paris")] []) in
  let st := Stub.disk "in.txt" "Paris is the capital of France." in
  main E Stub.one_question st = ((main E Stub.one_question st).1, Ok tt)
  ∧ ∃ answerable,
      content_of (main E Stub.one_question st).1 "output.txt"
      = Some (one_per_line answerable).
Proof.
  intros E st. split; [reflexivity|].
  destruct (main_output_file E Stub.one_question st
              (main E Stub.one_question st).1 eq_refl)
    as (text & candidates & st1 & answerable & st2 & _ & _ & _ & _ & Hc & _).
  exists answerable. exact Hc.
Defined.

(** C1.  The code breaks the claim, and the docstring of
    [write_questions] ("one question per line"), when a surviving question
    holds a newline: the run completes, one question passed the filter,
    and the output file has the two lines ["a"] and ["b"], neither of which
    is that question. *)
Lemma main_output_two_lines_one_question :
  let E := Stub.env (Stub.generator [Stub.two_lines]) Stub.answers_two_lines in
  let st := Stub.disk "in.txt" "Paris is in France." in
  let run := main E Stub.one_question st in
  run.2 = Ok tt
  ∧ (generate_questions E "Paris is in France." 1 64 st).2
    = Ok [Stub.two_lines]
  ∧ (filter_answerable_questions E [Stub.two_lines] "Paris is in France." st).2
    = Ok [Stub.two_lines]
  ∧ lines <$> content_of run.1 "output.txt" = Some ["a"; "b"]
  ∧ lines <$> content_of run.1 "output.txt" ≠ Some [Stub.two_lines].
Proof.
  intros E st run. do 4 (split; [reflexivity|]). by vm_compute.
Qed.

(** * Further properties of the script *)

(** ** Loader and writer *)

(** X1. When the input path holds no file, or a file that is not valid
    UTF-8, [read_text_file] raises FileNotFoundError, respectively
    UnicodeDecodeError; [main] catches it, prints ["Error reading file: "]
    with the error's text and exits with status 1, having loaded no model
    and written no file. *)
Theorem main_unreadable_input E args st :
  (∀ t, files st !! text_file args ≠ Some (Text t)) →
  ∃ e,
    read_text_file (text_file args) st = (st, Raise e)
    ∧ exn_class_of e
      = match files st !! text_file args with
        | Some _ => UnicodeDecodeError
        | None => FileNotFoundError
        end
    ∧ main E args st
      = (State (files st) (stdout st ++ ["Error reading file: " +:+ exn_str e])
           (log st), SysExit 1).
Proof.
  intros Hno.
  assert (∃ e, read_text_file (text_file args) st = (st, Raise e)
               ∧ exn_class_of e
                 = match files st !! text_file args with
                   | Some _ => UnicodeDecodeError
                   | None => FileNotFoundError
                   end) as (e & Hread & Hclass).
  { unfold read_text_file, file_read. run.
    destruct (files st !! text_file args) as [[t|]|]; [|by eexists..].
    by destruct (Hno t). }
  exists e. do 2 (split; [done|]).
  apply main_read_error. by rewrite Hread.
Qed.

Lemma main_unreadable_input_witness :
  let E := Stub.env (Stub.generator ["q1"]) Stub.q1_q3 in
  (∀ t, files Double.binary_disk !! text_file Stub.one_question
         ≠ Some (Text t))
  ∧ ∃ e, exn_class_of e = UnicodeDecodeError
         ∧ main E Stub.one_question Double.binary_disk
           = (State (files Double.binary_disk)
                ["Error reading file: " +:+ exn_str e] [], SysExit 1).
Proof.
  intros E.
  assert (∀ t, files Double.binary_disk !! text_file Stub.one_question
                ≠ Some (Text t)) as Hno by (intros t; by vm_compute).
  split; [exact Hno|].
  destruct (main_unreadable_input E Stub.one_question Double.binary_disk Hno)
    as (e & _ & Hclass & Hmain).
  exists e. split; [exact Hclass|exact Hmain].
Defined.

(** X2. What [write_questions] wrote, [read_text_file] reads back: on a
    writable path, and with no carriage return in the questions, reading
    the file after writing returns each question followed by a newline. *)
Theorem write_then_read E questions path st :
  open_w_error E path = None →
  forallb (λ q, negb (has_return q)) questions = true →
  (read_text_file path (write_questions E questions path st).1).2
  = Ok (one_per_line questions).
Proof.
  intros Hw Hcr. rewrite write_questions_run by done.
  unfold read_text_file, file_read. run. rewrite lookup_insert_eq.
  by rewrite universal_newlines_id by by apply has_return_one_per_line.
Qed.

Lemma write_then_read_witness :
  let E := Stub.env (Stub.generator []) Stub.q1_q3 in
  let st := Stub.disk "output.txt" "stale" in
  open_w_error E "output.txt" = None
  ∧ forallb (λ q, negb (has_return q)) ["q1"; "q3"] = true
  ∧ (read_text_file "output.txt"
       (write_questions E ["q1"; "q3"] "output.txt" st).1).2
    = Ok ("q1" +:+ nl +:+ "q3" +:+ nl).
Proof.
  intros E st. split; [reflexivity|]. split; [reflexivity|].
  apply (write_then_read E ["q1"; "q3"] "output.txt" st eq_refl eq_refl).
Defined.

(** X3. The file [write_questions] leaves has one line for each question
    and one more for each newline a question holds. *)
Theorem write_questions_line_count E questions path st :
  open_w_error E path = None →
  ∃ t,
    content_of (write_questions E questions path st).1 path = Some t
    ∧ length (lines t)
      = (length questions + sum_list (count_newlines <$> questions))%nat.
Proof.
  intros Hw. exists (one_per_line questions).
  split.
  { rewrite write_questions_run by done. unfold content_of; simpl.
    by rewrite lookup_insert_eq. }
  induction questions as [|q qs IH]; [done|].
  cbn [one_per_line foldr]. fold (one_per_line qs).
  rewrite length_lines_append, IH. rewrite fmap_cons. simpl. lia.
Qed.

Lemma write_questions_line_count_witness :
  let E := Stub.env (Stub.generator []) Stub.q1_q3 in
  let st := Stub.disk "in.txt" "text" in
  open_w_error E "output.txt" = None
  ∧ ∃ t,
      content_of (write_questions E [Stub.two_lines; "q3"] "output.txt" st).1
        "output.txt" = Some t
      ∧ length (lines t) = 3%nat.
Proof.
  intros E st. split; [reflexivity|].
  destruct (write_questions_line_count E [Stub.two_lines; "q3"] "output.txt"
              st eq_refl) as (t & Ht & Hlen).
  exists t. split; [exact Ht|exact Hlen].
Defined.

(** ** Generator and filter *)

(** X4. With valid arguments, a pipeline that loads and a call that
    returns dicts which all have ["generated_text"], [generate_questions]
    returns those texts in order, as many as the pipeline returned.  It
    makes exactly three calls: the probe, the load with
    [max(num_questions, 4)] beams, and one model call whose prompt is
    ["generate questions: "] followed by the text, with [max_tokens] as
    token budget and [num_questions] as number of sequences. *)
Theorem generate_questions_returns E text n m st qg ds qs :
  1 ≤ n → 1 ≤ m →
  pipeline_text2text E qg_model (device_for E) (Z.max n 4) = Returns qg →
  qg ("generate questions: " +:+ text) m n = Returns ds →
  Forall2 (λ d q, d !! "generated_text" = Some q) ds qs →
  generate_questions E text n m st
  = (State (files st) (stdout st) (log st ++ generate_events E text n m),
     Ok qs)
  ∧ length qs = length ds.
Proof.
  intros Hn Hm Hqg Hds Hall.
  rewrite generate_questions_run, Hqg, Hds by done.
  assert (mapM (λ d : gmap string string, d !! "generated_text") ds = Some qs)
    as -> by by apply mapM_Some_2.
  split; [done|].
  symmetry. by eapply Forall2_length.
Qed.

Lemma generate_questions_returns_witness :
  let qg := Stub.generator ["q1"; "q2"] in
  let E := Stub.env qg Stub.q1_q3 in
  let st := Stub.disk "in.txt" "Paris is in France." in
  1 ≤ 2 ∧ 1 ≤ 64
  ∧ pipeline_text2text E qg_model (device_for E) (Z.max 2 4) = Returns qg
  ∧ generate_questions E "Paris is in France." 2 64 st
    = (State (files st) []
         [CudaProbe;
          PipelineLoad "text2text-generation" qg_model (-1) (Some 4);
          GenerateCall "generate questions: Paris is in France." 64 2],
       Ok ["q1"; "q2"]).
Proof.
  intros qg E st. split; [lia|]. split; [lia|]. split; [reflexivity|].
  apply (generate_questions_returns E "Paris is in France." 2 64 st qg
           [ {[ "generated_text" := "q1" ]}; {[ "generated_text" := "q2" ]} ]
           ["q1"; "q2"]); [lia|lia|reflexivity|reflexivity|].
  repeat constructor.
Defined.

(** X5. When one of the dicts the generation call returns has no
    ["generated_text"], the list comprehension of line 77 raises KeyError.
    [main] does not catch it (it is no ValueError): the run ends with that
    error, nothing printed and no file written. *)
Theorem main_missing_generated_text E args st text qg ds d :
  (read_text_file (text_file args) st).2 = Ok text →
  blank text = false →
  1 ≤ num_questions args → 1 ≤ max_tokens args →
  pipeline_text2text E qg_model (device_for E) (Z.max (num_questions args) 4)
  = Returns qg →
  qg ("generate questions: " +:+ text) (max_tokens args) (num_questions args)
  = Returns ds →
  d ∈ ds → d !! "generated_text" = None →
  main E args st
  = (State (files st) (stdout st)
       (log st
        ++ generate_events E text (num_questions args) (max_tokens args)),
     Raise (Exn KeyError "'generated_text'")).
Proof.
  intros Hread Hblank Hn Hm Hqg Hds Hd Hkey.
  rewrite (main_run E args st text Hread Hblank).
  rewrite generate_questions_run, Hqg, Hds by done.
  assert (mapM (λ d : gmap string string, d !! "generated_text") ds = None)
    as ->; [|done].
  apply mapM_None_2, Exists_exists. by exists d.
Qed.

Lemma main_missing_generated_text_witness :
  let E := Stub.env Double.keyless Stub.q1_q3 in
  let st := Stub.disk "in.txt" "Paris is in France." in
  (read_text_file "in.txt" st).2 = Ok "Paris is in France."
  ∧ blank "Paris is in France." = false
  ∧ ({[ "text" := "q2" ]} : gmap string string) !! "generated_text" = None
  ∧ (main E Stub.one_question st).2 = Raise (Exn KeyError "'generated_text'")
  ∧ content_of (main E Stub.one_question st).1 "output.txt" = None.
Proof.
  intros E st. split; [reflexivity|]. split; [reflexivity|].
  split; [reflexivity|].
  assert (({[ "text" := "q2" ]} : gmap string string)
          ∈ [ ({[ "generated_text" := "q1" ]} : gmap string string);
              {[ "text" := "q2" ]} ]) as Hin by (right; left).
  rewrite (main_missing_generated_text E Stub.one_question st
             "Paris is in France." Double.keyless
             [ {[ "generated_text" := "q1" ]}; {[ "text" := "q2" ]} ]
             {[ "text" := "q2" ]} eq_refl eq_refl ltac:(simpl; lia)
             ltac:(simpl; lia) eq_refl eq_refl Hin eq_refl).
  split; reflexivity.
Defined.

(** X7. A result whose ["answer"] is not a string makes [.strip()] raise
    AttributeError inside the [try]; the [except] swallows it, so the
    filter still returns and the question is left out. *)
Theorem non_string_answer_drops E qa questions context q result v st :
  pipeline_qa E qa_model (device_for E) = Returns qa →
  qa q context = Returns result →
  result !! "answer" = Some v →
  (∀ s, v ≠ VStr s) →
  (∀ answerable st0,
     ∃ e, (try_question qa context answerable q st0).2 = Raise e
          ∧ exn_class_of e = AttributeError)
  ∧ ∃ st' answerable,
      filter_answerable_questions E questions context st = (st', Ok answerable)
      ∧ q ∉ answerable.
Proof.
  intros Hqa Hq Hkey Hv. split.
  - intros answerable st0. unfold try_question, dict_get. run.
    rewrite Hq; simpl. rewrite Hkey.
    destruct v as [|s| |]; [|by destruct (Hv s)| |]; by eexists.
  - do 2 eexists. split; [by apply filter_answerable_questions_run|].
    rewrite list_elem_of_In, filter_In. unfold yields_answer.
    rewrite Hq, Hkey. destruct v as [|s| |]; [|by destruct (Hv s)| |];
      by intros [_ ?].
Qed.

Lemma non_string_answer_drops_witness :
  let E := Stub.env (Stub.generator []) Double.answers_none in
  pipeline_qa E qa_model (device_for E) = Returns Double.answers_none
  ∧ Double.answers_none "q2" "Paris is in France."
    = Returns {[ "answer" := VNone ]}
  ∧ ∃ st' answerable,
      filter_answerable_questions E ["q1"; "q2"; "q3"] "Paris is in France."
        (Stub.disk "in.txt" "Paris is in France.") = (st', Ok answerable)
      ∧ "q2" ∉ answerable.
Proof.
  intros E. split; [reflexivity|]. split; [reflexivity|].
  apply (proj2 (non_string_answer_drops E Double.answers_none
                  ["q1"; "q2"; "q3"] "Paris is in France." "q2"
                  {[ "answer" := VNone ]} VNone
                  (Stub.disk "in.txt" "Paris is in France.")
                  eq_refl eq_refl eq_refl ltac:(discriminate))).
Defined.

(** ** Orchestrator, further *)

(** X9. The write stage is not guarded: when generation and filtering
    succeed but the output path cannot be opened, [main] has already
    printed the numbered questions, ends with the error of [open], and
    leaves every file as it was. *)
Theorem main_write_failure E args st text st1 candidates st2 answerable e :
  (read_text_file (text_file args) st).2 = Ok text →
  blank text = false →
  generate_questions E text (num_questions args) (max_tokens args) st
  = (st1, Ok candidates) →
  filter_answerable_questions E candidates text st1 = (st2, Ok answerable) →
  open_w_error E (output_file args) = Some e →
  main E args st
  = (State (files st)
       (stdout st ++ imap (λ i q, question_line (Z.of_nat i + 1) q) answerable)
       (log st2), Raise e).
Proof.
  intros Hread Hblank Hgen Hfilter Hw.
  pose proof (generate_questions_frame E text (num_questions args)
                (max_tokens args) st) as (Hg & Hgo & _).
  pose proof (filter_answerable_questions_frame E candidates text st1)
    as (Hf & Hfo & _).
  rewrite Hgen in Hg, Hgo. rewrite Hfilter in Hf, Hfo. simpl in *.
  rewrite (main_run E args st text Hread Hblank), Hgen, Hfilter.
  rewrite (write_questions_fail E e) by done.
  rewrite (enumerate_imap (λ i q, "Question " +:+ pretty i +:+ ": " +:+ q)).
  unfold question_line. by rewrite Hf, Hfo, Hg, Hgo.
Qed.

Lemma main_write_failure_witness :
  let E := Double.env_read_only (Stub.generator ["q1"; "q2"; "q3"])
             Stub.q1_q3 in
  let st := Stub.disk "in.txt" "Paris is in France." in
  (read_text_file "in.txt" st).2 = Ok "Paris is in France."
  ∧ blank "Paris is in France." = false
  ∧ (∃ e, open_w_error E "output.txt" = Some e)
  ∧ stdout (main E Stub.one_question st).1 = ["Question 1: q1"; "Question 2: q3"]
  ∧ (main E Stub.one_question st).2
    = Raise (Exn PermissionError "[Errno 13] Permission denied: 'output.txt'")
  ∧ files (main E Stub.one_question st).1 = files st.
Proof.
  intros E st. split; [reflexivity|]. split; [reflexivity|].
  split; [by eexists|].
  rewrite (main_write_failure E Stub.one_question st "Paris is in France."
             (generate_questions E "Paris is in France." 1 64 st).1
             ["q1"; "q2"; "q3"]
             (filter_answerable_questions E ["q1"; "q2"; "q3"]
                "Paris is in France."
                (generate_questions E "Paris is in France." 1 64 st).1).1
             ["q1"; "q3"]
             (Exn PermissionError "[Errno 13] Permission denied: 'output.txt'")
             eq_refl eq_refl eq_refl eq_refl eq_refl).
  split; [reflexivity|]. split; reflexivity.
Defined.

(** X10. When [main] returns, it has called [print] once for each question
    written to the output file, in the same order and after anything
    printed before, with the argument ["Question <i>: <question>"], [i]
    counting from 1.  ([stdout] lists the arguments of the [print] calls;
    a question that holds a newline shows as more than one console
    line.) *)
Theorem main_prints_numbered E args st st' :
  main E args st = (st', Ok tt) →
  ∃ answerable,
    content_of st' (output_file args) = Some (one_per_line answerable)
    ∧ stdout st'
      = stdout st ++ imap (λ i q, question_line (Z.of_nat i + 1) q) answerable.
Proof.
  intros Hmain.
  destruct (read_text_file (text_file args) st).2 as [text|e|c] eqn:Hread.
  2: { by rewrite (main_read_error E args st e Hread) in Hmain. }
  2: { by destruct (proj2 (read_text_file_run (text_file args) st) c). }
  destruct (blank text) eqn:Hblank.
  { by rewrite (main_blank E args st text Hread Hblank) in Hmain. }
  rewrite (main_run E args st text Hread Hblank) in Hmain.
  pose proof (generate_questions_frame E text (num_questions args)
                (max_tokens args) st) as (_ & Hgo & _).
  destruct (generate_questions _ _ _ _ _) as [st1 [candidates|e|c]].
  2: { by destruct (isinstance_ValueError e). }
  2: { done. }
  pose proof (filter_answerable_questions_frame E candidates text st1)
    as (_ & Hfo & _).
  destruct (filter_answerable_questions _ _ _ _)
    as [st2 [answerable|e|c]]; [|done..].
  simpl in *. exists answerable. split; [by eapply write_questions_ok|].
  destruct (open_w_error E (output_file args)) as [e|] eqn:Hw.
  { by rewrite (write_questions_fail E e) in Hmain. }
  rewrite write_questions_run in Hmain by done. injection Hmain as <-.
  simpl. rewrite Hfo, Hgo.
  by rewrite (enumerate_imap (λ i q, "Question " +:+ pretty i +:+ ": " +:+ q)).
Qed.

Lemma main_prints_numbered_witness :
  let E := Stub.env (Stub.generator ["q1"; "q2"; "q3"]) Stub.q1_q3 in
  let st := Stub.disk "in.txt" "Paris is in France." in
  main E Stub.one_question st = ((main E Stub.one_question st).1, Ok tt)
  ∧ ∃ answerable,
      content_of (main E Stub.one_question st).1 "output.txt"
      = Some (one_per_line answerable)
      ∧ stdout (main E Stub.one_question st).1
        = imap (λ i q, question_line (Z.of_nat i + 1) q) answerable.
Proof.
  intros E st. split; [reflexivity|].
  destruct (main_prints_numbered E Stub.one_question st
              (main E Stub.one_question st).1 eq_refl)
    as (answerable & Hc & Hout).
  exists answerable. split; [exact Hc|exact Hout].
Defined.

(** X11. A run of [main] that returns made these calls and no others, in
    this order: probe, load of the generation pipeline, one generation
    call on the text read; then probe, load of the question-answering
    pipeline, and one question-answering call per generated question, in
    generation order, each with the text read as context.  Both pipelines
    are loaded on the device the probe selects. *)
Theorem main_call_sequence E args st st' :
  main E args st = (st', Ok tt) →
  ∃ text candidates,
    (read_text_file (text_file args) st).2 = Ok text
    ∧ (generate_questions E text (num_questions args) (max_tokens args) st).2
      = Ok candidates
    ∧ new_events st st'
      = generate_events E text (num_questions args) (max_tokens args)
        ++ filter_events E candidates text.
Proof.
  intros Hmain.
  destruct (read_text_file (text_file args) st).2 as [text|e|c] eqn:Hread.
  2: { by rewrite (main_read_error E args st e Hread) in Hmain. }
  2: { by destruct (proj2 (read_text_file_run (text_file args) st) c). }
  destruct (blank text) eqn:Hblank.
  { by rewrite (main_blank E args st text Hread Hblank) in Hmain. }
  rewrite (main_run E args st text Hread Hblank) in Hmain.
  destruct (generate_questions _ _ _ _ _) as [st1 [candidates|e|c]] eqn:Hgen.
  2: { by destruct (isinstance_ValueError e). }
  2: { done. }
  pose proof (generate_questions_ok_inv _ _ _ _ _ _ _ Hgen) as ->.
  exists text, candidates. split; [done|]. split; [by rewrite Hgen|].
  destruct (pipeline_qa E qa_model (device_for E)) as [qa|e] eqn:Hqa.
  2: { by rewrite (filter_answerable_questions_raise E e) in Hmain. }
  rewrite (filter_answerable_questions_run E qa) in Hmain by done.
  destruct (open_w_error E (output_file args)) as [e|] eqn:Hw.
  { by rewrite (write_questions_fail E e) in Hmain. }
  rewrite write_questions_run in Hmain by done. injection Hmain as <-.
  unfold new_events. simpl. by rewrite <-app_assoc, drop_app_length.
Qed.

Lemma main_call_sequence_witness :
  let E := Stub.env (Stub.generator ["q1"; "q2"]) Stub.q1_q3 in
  let st := Stub.disk "in.txt" "Paris is in France." in
  main E Stub.one_question st = ((main E Stub.one_question st).1, Ok tt)
  ∧ ∃ text candidates,
      (read_text_file "in.txt" st).2 = Ok text
      ∧ new_events st (main E Stub.one_question st).1
        = generate_events E text 1 64 ++ filter_events E candidates text.
Proof.
  intros E st. split; [reflexivity|].
  destruct (main_call_sequence E Stub.one_question st
              (main E Stub.one_question st).1 eq_refl)
    as (text & candidates & Hread & _ & Hev).
  exists text, candidates. split; [exact Hread|exact Hev].
Defined.

(** X12. The filtering stage is not guarded either: an error raised while
    the question-answering pipeline is loaded ends [main] as it was
    raised, a ValueError included, with nothing printed and no file
    written. *)
Theorem main_filter_load_failure E args st text st1 candidates e :
  (read_text_file (text_file args) st).2 = Ok text →
  blank text = false →
  generate_questions E text (num_questions args) (max_tokens args) st
  = (st1, Ok candidates) →
  pipeline_qa E qa_model (device_for E) = Raises e →
  main E args st
  = (State (files st) (stdout st)
       (log st1
        ++ [CudaProbe;
            PipelineLoad "question-answering" qa_model (device_for E) None]),
     Raise e).
Proof.
  intros Hread Hblank Hgen Hqa.
  pose proof (generate_questions_frame E text (num_questions args)
                (max_tokens args) st) as (Hg & Hgo & _).
  rewrite Hgen in Hg, Hgo. simpl in *.
  rewrite (main_run E args st text Hread Hblank), Hgen.
  rewrite (filter_answerable_questions_raise E e) by done.
  by rewrite Hg, Hgo.
Qed.

Lemma main_filter_load_failure_witness :
  let E := Double.env_qa_value_error (Stub.generator ["q1"]) in
  let st := Stub.disk "in.txt" "Paris is in France." in
  let e := Exn ValueError "Unrecognized configuration class" in
  (read_text_file "in.txt" st).2 = Ok "Paris is in France."
  ∧ blank "Paris is in France." = false
  ∧ pipeline_qa E qa_model (device_for E) = Raises e
  ∧ isinstance_ValueError e = true
  ∧ (main E Stub.one_question st).2 = Raise e
  ∧ stdout (main E Stub.one_question st).1 = [].
Proof.
  intros E st e. do 4 (split; [reflexivity|]).
  rewrite (main_filter_load_failure E Stub.one_question st
             "Paris is in France."
             (generate_questions E "Paris is in France." 1 64 st).1 ["q1"] e
             eq_refl eq_refl eq_refl eq_refl).
  split; reflexivity.
Defined.
